(** * example-python-lambda: the FastAPI application of lambda_function.py

    The module declares one pydantic model ([PlatformRequest]), three route
    handlers ([health], [root], [platform]) registered on a FastAPI [app],
    and wraps the application with Mangum as [lambda_handler].

    The handlers and the model are embedded from the module.  What the
    module only declares, and FastAPI, pydantic and the logging package
    carry out, is given the meaning those packages document for the
    declaration; whatever the module's text does not fix is a field of
    [Library] and every statement holds for each value of it. *)

From Stdlib Require Import String Ascii List ZArith Bool Lia.
Import ListNotations.
Local Open Scope list_scope.
Local Open Scope string_scope.
Local Set Warnings "-register-all".

(** ** JSON values, as [json.loads] and [json.dumps] see them *)

Inductive json : Type :=
| JNull
| JBool (b : bool)
| JNum (n : Z)
| JStr (s : string)
| JArr (items : list json)
| JObj (fields : list (string * json)).

(** [d.get(k)] on the dict of a parsed JSON object (keys are distinct there). *)
Fixpoint lookup (k : string) (fields : list (string * json)) : option json :=
  match fields with
  | [] => None
  | (k', v) :: rest => if String.eqb k k' then Some v else lookup k rest
  end.

(** Member access on a JSON value: [None] when the value is no object or has
    no such key. *)
Definition jget (k : string) (j : json) : option json :=
  match j with
  | JObj fields => lookup k fields
  | _ => None
  end.

(** A path of member accesses, [j[k1][k2]...]. *)
Fixpoint jpath (ks : list string) (j : json) : option json :=
  match ks with
  | [] => Some j
  | k :: ks' =>
      match jget k j with
      | Some j' => jpath ks' j'
      | None => None
      end
  end.

(** ** The logger

    [logger = logging.getLogger(); logger.setLevel(logging.INFO)]: the only
    object of the module that outlives an invocation.  Its record stream is
    the state every handler runs in. *)

Inductive level : Type := INFO | ERROR.

Definition Log : Type := list (level * string).

Inductive exn : Type := Exception (msg : string).

Definition str_exn (e : exn) : string :=
  match e with Exception msg => msg end.

(** Outcome of a Python call: a returned value or a raised exception. *)
Inductive outcome (A : Type) : Type :=
| Return (a : A)
| Raise (e : exn).
Arguments Return {A} a.
Arguments Raise {A} e.

(** Calls that may log and may raise. *)
Definition M (A : Type) : Type := Log -> outcome A * Log.

Definition ret {A} (a : A) : M A := fun l => (Return a, l).

Definition bind {A B} (c : M A) (k : A -> M B) : M B :=
  fun l =>
    match c l with
    | (Return a, l') => k a l'
    | (Raise e, l') => (Raise e, l')
    end.

Definition raise {A} (e : exn) : M A := fun l => (Raise e, l).

(** [try: body / except Exception as e: handler(e)]. *)
Definition try_except {A} (body : M A) (handler : exn -> M A) : M A :=
  fun l =>
    match body l with
    | (Return a, l') => (Return a, l')
    | (Raise e, l') => handler e l'
    end.

Notation "x <- c ;; k" := (bind c (fun x => k))
  (at level 61, c at next level, right associativity).
Notation "c ;;; k" := (bind c (fun _ => k))
  (at level 61, right associativity).

(** A record appended to the stream. *)
Definition emit (lv : level) (msg : string) (l : Log) : Log :=
  (l ++ [(lv, msg)])%list.

(** [logger.info(msg)]: the logger's level is INFO, so the record is kept. *)
Definition logger_info (msg : string) : M unit :=
  fun l => (Return tt, emit INFO msg l).

(** [logger.exception(fmt, e)]: a record at ERROR severity (the traceback
    that follows the message is not modelled). *)
Definition logger_exception (prefix : string) (e : exn) : M unit :=
  fun l => (Return tt, emit ERROR (prefix ++ str_exn e) l).

(** ** The pydantic model

    [[
    class PlatformRequest(BaseModel):
        name: str
        version: Optional[str] = "1.0.0"
        description: Optional[str] = ""
    ]]
    An [Optional[str]] attribute holds a string or [None]. *)

Record PlatformRequest : Type := mkPlatformRequest {
  name : string;
  version : option string;
  description : option string
}.

(** ** The HTTP side *)

Inductive Body : Type :=
| NoBody                 (* the event carries no body *)
| BadJson                (* a body that is not JSON text *)
| Json (j : json).       (* a body decoded as JSON *)

Record Event : Type := mkEvent {
  httpMethod : string;
  path : string;
  body : Body
}.

Record Response : Type := mkResponse {
  statusCode : Z;
  payload : json
}.

(** What the packages decide and the module's text does not. *)
Record Library : Type := mkLibrary {
  (* [repr] of a [str], used by the f-string over [request.dict()] *)
  repr_str : string -> string;
  (* pydantic on a value that is neither a string nor null where a [str] is
     declared: version 1 converts numbers, version 2 rejects them *)
  coerce_str : json -> option string;
  (* pydantic on a body that is JSON but no JSON object *)
  coerce_dict : json -> option (list (string * json));
  (* the value under "detail" in the answer to a body that fails validation *)
  error_detail : Body -> json;
  (* the answer to a request whose path no decorator of the module names *)
  unrouted : Event -> Response;
  (* the answer when a handler's exception leaves the application *)
  server_error : exn -> Response
}.

Section App.

Variable L : Library.

(** *** Validation of the body against [PlatformRequest] *)

(** [name: str]: required, a string. *)
Definition validate_required (o : option json) : option string :=
  match o with
  | None => None
  | Some JNull => None
  | Some (JStr s) => Some s
  | Some v => coerce_str L v
  end.

(** [Optional[str] = default]: the default when the key is absent, [None]
    for an explicit null, the string otherwise. *)
Definition validate_optional (default : string) (o : option json)
  : option (option string) :=
  match o with
  | None => Some (Some default)
  | Some JNull => Some None
  | Some (JStr s) => Some (Some s)
  | Some v => option_map Some (coerce_str L v)
  end.

Definition validate_fields (fields : list (string * json))
  : option PlatformRequest :=
  match validate_required (lookup "name" fields) with
  | None => None
  | Some n =>
      match validate_optional "1.0.0" (lookup "version" fields) with
      | None => None
      | Some v =>
          match validate_optional "" (lookup "description" fields) with
          | None => None
          | Some d => Some (mkPlatformRequest n v d)
          end
      end
  end.

(** The key/value pairs pydantic reads the attributes from. *)
Definition body_fields (b : Body) : option (list (string * json)) :=
  match b with
  | NoBody => None
  | BadJson => None
  | Json (JObj fields) => Some fields
  | Json j => coerce_dict L j
  end.

(** The request a body is turned into before [platform] is called; [None]
    when validation fails. *)
Definition validate (b : Body) : option PlatformRequest :=
  match body_fields b with
  | Some fields => validate_fields fields
  | None => None
  end.

(** *** The handlers *)

(** [if x:] on an [Optional[str]]: [None] and the empty string are false. *)
Definition truthy (o : option string) : bool :=
  match o with
  | None => false
  | Some s => negb (String.eqb s "")
  end.

(** [f"{x}"] on an [Optional[str]]. *)
Definition format_opt (o : option string) : string :=
  match o with
  | None => "None"
  | Some s => s
  end.

(** [repr(x)] on an [Optional[str]]. *)
Definition repr_opt (o : option string) : string :=
  match o with
  | None => "None"
  | Some s => repr_str L s
  end.

(** [f"{request.dict()}"]. *)
Definition dict_repr (request : PlatformRequest) : string :=
  "{'name': " ++ repr_str L (name request)
  ++ ", 'version': " ++ repr_opt (version request)
  ++ ", 'description': " ++ repr_opt (description request) ++ "}".

(** An [Optional[str]] under [json.dumps]. *)
Definition json_opt (o : option string) : json :=
  match o with
  | None => JNull
  | Some s => JStr s
  end.

Definition health : M json :=
  ret (JObj [("status", JStr "healthy");
             ("service", JStr "example-python-lambda")]).

Definition root : M json :=
  ret (JObj [("message", JStr "Hello from Python Lambda!")]).

(** The message the body of [platform] builds. *)
Definition response_message (request : PlatformRequest) : string :=
  let response_message := "Welcome to " ++ name request ++ "!" in
  let response_message :=
    if truthy (version request)
    then response_message
         ++ " Running version " ++ format_opt (version request) ++ "."
    else response_message in
  let response_message :=
    if truthy (description request)
    then response_message
         ++ " Description: " ++ format_opt (description request)
    else response_message in
  response_message.

Definition platform_info (request : PlatformRequest) : json :=
  JObj [("message", JStr (response_message request));
        ("platform",
          JObj [("name", JStr (name request));
                ("version", json_opt (version request));
                ("description", json_opt (description request));
                ("status", JStr "active");
                ("uptime", JStr "99.9%")]);
        ("metadata",
          JObj [("processed_at", JStr "2024-01-01T00:00:00Z");
                ("lambda_version", JStr "python3.12");
                ("region", JStr "us-east-1")])].

(** The [try] block of [platform]. *)
Definition platform_body (request : PlatformRequest) : M json :=
  logger_info ("Processing platform request: " ++ dict_repr request) ;;;
  ret (platform_info request).

(** The [except Exception as e] clause of [platform]. *)
Definition platform_except (e : exn) : M json :=
  logger_exception "Error processing platform request: " e ;;;
  raise e.

Definition platform (request : PlatformRequest) : M json :=
  try_except (platform_body request) platform_except.

(** *** The route table: the three decorators, in the module's order *)

Inductive endpoint : Type :=
| NoArgs (h : M json)                        (* [def h():] *)
| TypedBody (h : PlatformRequest -> M json). (* [def h(request: PlatformRequest):] *)

Record Route : Type := mkRoute {
  route_method : string;
  route_path : string;
  route_endpoint : endpoint
}.

Definition routes : list Route :=
  [ mkRoute "GET" "/health" (NoArgs health);
    mkRoute "GET" "/" (NoArgs root);
    mkRoute "POST" "/platform" (TypedBody platform) ].

(** A route whose path and method both fit, and one whose path fits. *)
Definition full_match (ev : Event) (r : Route) : bool :=
  String.eqb (path ev) (route_path r)
  && String.eqb (httpMethod ev) (route_method r).

Definition partial_match (ev : Event) (r : Route) : bool :=
  String.eqb (path ev) (route_path r).

Definition ok (result : json) : Response := mkResponse 200 result.

Definition method_not_allowed : Response :=
  mkResponse 405 (JObj [("detail", JStr "Method Not Allowed")]).

Definition unprocessable (b : Body) : Response :=
  mkResponse 422 (JObj [("detail", error_detail L b)]).

(** Calling a route's function: a declared [PlatformRequest] parameter is
    validated first, and the function is not called when that fails. *)
Definition call_endpoint (ev : Event) (e : endpoint) : M Response :=
  match e with
  | NoArgs h => result <- h ;; ret (ok result)
  | TypedBody h =>
      match validate (body ev) with
      | Some request => result <- h request ;; ret (ok result)
      | None => ret (unprocessable (body ev))
      end
  end.

(** The application on one request. *)
Definition app (ev : Event) : M Response :=
  match find (full_match ev) routes with
  | Some r => call_endpoint ev (route_endpoint r)
  | None =>
      match find (partial_match ev) routes with
      | Some _ => ret method_not_allowed
      | None => ret (unrouted L ev)
      end
  end.

(** [lambda_handler = Mangum(app)]: one event in, one response out. *)
Definition lambda_handler (ev : Event) (log : Log) : Response * Log :=
  match app ev log with
  | (Return response, log') => (response, log')
  | (Raise e, log') => (server_error L e, log')
  end.

End App.

(** One admissible library, for evaluating the application on examples. *)
Definition plain_library : Library :=
  mkLibrary
    (fun s => "'" ++ s ++ "'")
    (fun _ => None)
    (fun _ => None)
    (fun _ => JArr [])
    (fun _ => mkResponse 404 (JObj [("detail", JStr "Not Found")]))
    (fun _ => mkResponse 500 (JStr "Internal Server Error")).

Definition GET (p : string) : Event := mkEvent "GET" p NoBody.
Definition POST (p : string) (j : json) : Event := mkEvent "POST" p (Json j).

(** ** The message as the specification words it

    Base greeting, then version clause, then description clause; compared
    with [response_message] in [response_message_clauses]. *)

Definition base_greeting (request : PlatformRequest) : string :=
  "Welcome to " ++ name request ++ "!".

(** The version clause: present exactly when [version] is a non-empty
    string. *)
Definition version_clause (request : PlatformRequest) : string :=
  match version request with
  | Some (String c v) => " Running version " ++ String c v ++ "."
  | _ => ""
  end.

(** The description clause: present exactly when [description] is a
    non-empty string. *)
Definition description_clause (request : PlatformRequest) : string :=
  match description request with
  | Some (String c d) => " Description: " ++ String c d
  | _ => ""
  end.

(** ** Strings *)

Lemma append_nil_r (s : string) : s ++ "" = s.
Proof. induction s as [|c s IH]; simpl; [reflexivity | now rewrite IH]. Qed.

Lemma append_assoc (s t u : string) : (s ++ t) ++ u = s ++ (t ++ u).
Proof. induction s as [|c s IH]; simpl; [reflexivity | now rewrite IH]. Qed.

(** ** Routing *)

Section Routing.

Variable L : Library.

Lemma app_health (b : Body) (log : Log) :
  app L (mkEvent "GET" "/health" b) log
  = (Return (ok (JObj [("status", JStr "healthy");
                       ("service", JStr "example-python-lambda")])), log).
Proof. reflexivity. Qed.

Lemma app_root (b : Body) (log : Log) :
  app L (mkEvent "GET" "/" b) log
  = (Return (ok (JObj [("message", JStr "Hello from Python Lambda!")])), log).
Proof. reflexivity. Qed.

Lemma app_platform (b : Body) :
  app L (mkEvent "POST" "/platform" b)
  = call_endpoint L (mkEvent "POST" "/platform" b) (TypedBody (platform L)).
Proof. reflexivity. Qed.

(** The [try] block of [platform] returns: nothing in it raises. *)
Lemma platform_body_returns (request : PlatformRequest) (log : Log) :
  platform_body L request log
  = (Return (platform_info request),
     emit INFO ("Processing platform request: " ++ dict_repr L request) log).
Proof. reflexivity. Qed.

Lemma platform_returns (request : PlatformRequest) (log : Log) :
  platform L request log
  = (Return (platform_info request),
     emit INFO ("Processing platform request: " ++ dict_repr L request) log).
Proof. reflexivity. Qed.

(** A validated body: [platform] is called on the request and its result is
    sent with status 200. *)
Lemma lambda_handler_platform_valid (b : Body) (request : PlatformRequest)
    (log : Log) :
  validate L b = Some request ->
  lambda_handler L (mkEvent "POST" "/platform" b) log
  = (ok (platform_info request),
     emit INFO ("Processing platform request: " ++ dict_repr L request) log).
Proof.
  intros Hv. unfold lambda_handler. rewrite app_platform.
  unfold call_endpoint; cbn [body]. rewrite Hv.
  unfold bind. rewrite platform_returns. reflexivity.
Qed.

(** A body that fails validation: [platform] is not called. *)
Lemma lambda_handler_platform_invalid (b : Body) (log : Log) :
  validate L b = None ->
  lambda_handler L (mkEvent "POST" "/platform" b) log
  = (unprocessable L b, log).
Proof.
  intros Hv. unfold lambda_handler. rewrite app_platform.
  unfold call_endpoint; cbn [body]. rewrite Hv. reflexivity.
Qed.

End Routing.

(** ** The message of [platform], clause by clause *)

Lemma response_message_clauses (request : PlatformRequest) :
  response_message request
  = base_greeting request ++ version_clause request
    ++ description_clause request.
Proof.
  unfold response_message, base_greeting, version_clause, description_clause.
  destruct request as [n [[|c v]|] [[|c' d]|]]; cbn [version description name truthy format_opt String.eqb negb];
    rewrite ?append_nil_r, ?append_assoc; reflexivity.
Qed.

(** ** GET /health *)

(** C9. Every event with method GET and path /health, whatever else it
    carries, is answered with status 200 and the body
    {"status": "healthy", "service": "example-python-lambda"}; [health]
    takes no argument, returns that value in every state, never raises and
    writes no log record. *)
Theorem health_always_healthy :
  forall (L : Library) (b : Body) (log : Log),
    lambda_handler L (mkEvent "GET" "/health" b) log
    = (mkResponse 200
         (JObj [("status", JStr "healthy");
                ("service", JStr "example-python-lambda")]), log)
    /\ health log
       = (Return (JObj [("status", JStr "healthy");
                        ("service", JStr "example-python-lambda")]), log).
Proof.
  intros L b log. split.
  - unfold lambda_handler. now rewrite app_health.
  - reflexivity.
Qed.

(** ** POST /platform *)

(** C2. POST /platform with body {"name": "Acme"} is answered with status
    200; the message is "Welcome to Acme! Running version 1.0.0.",
    platform.version is "1.0.0" and platform.description is "". *)
Theorem platform_name_only :
  forall (L : Library) (log : Log),
    let response :=
      fst (lambda_handler L (POST "/platform" (JObj [("name", JStr "Acme")])) log) in
    statusCode response = 200%Z
    /\ jget "message" (payload response)
       = Some (JStr "Welcome to Acme! Running version 1.0.0.")
    /\ jpath ["platform"; "version"] (payload response) = Some (JStr "1.0.0")
    /\ jpath ["platform"; "description"] (payload response) = Some (JStr "").
Proof.
  intros L log response. subst response. unfold POST.
  rewrite (lambda_handler_platform_valid L _
             (mkPlatformRequest "Acme" (Some "1.0.0") (Some ""))) by reflexivity.
  repeat split.
Qed.

(** C3. For every POST /platform request that passes validation, the
    message is the base greeting, followed by the version clause when the
    version is non-empty, followed by the description clause when the
    description is non-empty, in this order; the body
    {"name": "Acme", "version": "", "description": "x"} gives exactly
    "Welcome to Acme! Description: x". *)
Theorem platform_message_order :
  forall (L : Library) (b : Body) (request : PlatformRequest) (log : Log),
    validate L b = Some request ->
    jget "message"
      (payload (fst (lambda_handler L (mkEvent "POST" "/platform" b) log)))
    = Some (JStr (base_greeting request ++ version_clause request
                  ++ description_clause request))
    /\ jget "message"
         (payload (fst (lambda_handler L
            (POST "/platform"
               (JObj [("name", JStr "Acme"); ("version", JStr "");
                      ("description", JStr "x")])) log)))
       = Some (JStr "Welcome to Acme! Description: x").
Proof.
  intros L b request log Hv. split.
  - rewrite (lambda_handler_platform_valid L b request log Hv).
    cbn [fst payload ok platform_info jget lookup String.eqb Ascii.eqb Bool.eqb].
    now rewrite response_message_clauses.
  - unfold POST.
    rewrite (lambda_handler_platform_valid L _
               (mkPlatformRequest "Acme" (Some "") (Some "x"))) by reflexivity.
    reflexivity.
Qed.

Lemma platform_message_order_witness :
  validate plain_library
    (Json (JObj [("name", JStr "Acme"); ("version", JStr "2.1");
                 ("description", JStr "x")]))
  = Some (mkPlatformRequest "Acme" (Some "2.1") (Some "x"))
  /\ jget "message"
       (payload (fst (lambda_handler plain_library
          (POST "/platform"
             (JObj [("name", JStr "Acme"); ("version", JStr "2.1");
                    ("description", JStr "x")])) [])))
     = Some (JStr "Welcome to Acme! Running version 2.1. Description: x").
Proof.
  split; [reflexivity |].
  exact (proj1 (platform_message_order plain_library
                  (Json (JObj [("name", JStr "Acme"); ("version", JStr "2.1");
                               ("description", JStr "x")]))
                  (mkPlatformRequest "Acme" (Some "2.1") (Some "x")) []
                  eq_refl)).
Defined.

(** ** The attributes of [PlatformRequest] *)

(** An empty name reaches [platform] and is answered with status 200. *)
Lemma empty_name_is_accepted :
  validate plain_library (Json (JObj [("name", JStr "")]))
  = Some (mkPlatformRequest "" (Some "1.0.0") (Some ""))
  /\ lambda_handler plain_library (POST "/platform" (JObj [("name", JStr "")])) []
     = (ok (platform_info (mkPlatformRequest "" (Some "1.0.0") (Some ""))),
        [(INFO, "Processing platform request: {'name': '', 'version': '1.0.0', 'description': ''}")])
  /\ statusCode
       (fst (lambda_handler plain_library
               (POST "/platform" (JObj [("name", JStr "")])) [])) = 200%Z.
Proof. repeat split. Qed.

(** C4, as the model declares it.  [name] is required and is a string, with
    no condition on its length: a body whose name is any JSON string, the
    empty one included, and whose version and description validate, reaches
    [platform] with that very name and is answered with status 200; a body
    without the key [name] does not reach [platform]. *)
Theorem name_required_any_string :
  forall (L : Library) (b : Body) (fields : list (string * json))
         (n : string) (v d : option string) (log : Log),
    body_fields L b = Some fields ->
    validate_optional L "1.0.0" (lookup "version" fields) = Some v ->
    validate_optional L "" (lookup "description" fields) = Some d ->
    (lookup "name" fields = Some (JStr n) ->
       validate L b = Some (mkPlatformRequest n v d)
       /\ statusCode
            (fst (lambda_handler L (mkEvent "POST" "/platform" b) log)) = 200%Z)
    /\ (lookup "name" fields = None -> validate L b = None).
Proof.
  intros L b fields n v d log Hf Hv Hd. split.
  - intros Hn.
    assert (Hok : validate L b = Some (mkPlatformRequest n v d)).
    { unfold validate, validate_fields. now rewrite Hf, Hn, Hv, Hd. }
    split; [exact Hok |].
    now rewrite (lambda_handler_platform_valid L b _ log Hok).
  - intros Hn. unfold validate, validate_fields. now rewrite Hf, Hn.
Qed.

Lemma name_required_any_string_witness :
  validate plain_library (Json (JObj [("name", JStr "")]))
  = Some (mkPlatformRequest "" (Some "1.0.0") (Some ""))
  /\ statusCode
       (fst (lambda_handler plain_library
               (mkEvent "POST" "/platform" (Json (JObj [("name", JStr "")]))) []))
     = 200%Z.
Proof.
  exact (proj1 (name_required_any_string plain_library
                  (Json (JObj [("name", JStr "")])) [("name", JStr "")]
                  "" (Some "1.0.0") (Some "") [] eq_refl eq_refl eq_refl)
               eq_refl).
Defined.

(** C5. A POST /platform request whose body is not JSON text, or is a JSON
    object without the key [name], is answered with status 422 and an object
    holding the validation errors under "detail"; [platform] is not called:
    validation yields no request and the log is left as it was. *)
Theorem platform_invalid_body_422 :
  forall (L : Library) (b : Body) (log : Log),
    (b = BadJson
     \/ exists fields, b = Json (JObj fields) /\ lookup "name" fields = None) ->
    validate L b = None
    /\ lambda_handler L (mkEvent "POST" "/platform" b) log
       = (mkResponse 422 (JObj [("detail", error_detail L b)]), log).
Proof.
  intros L b log Hb.
  assert (Hv : validate L b = None).
  { destruct Hb as [-> | [fields [-> Hn]]]; [reflexivity |].
    unfold validate, validate_fields; cbn [body_fields]. now rewrite Hn. }
  split; [exact Hv |].
  now rewrite (lambda_handler_platform_invalid L b log Hv).
Qed.

Lemma platform_invalid_body_422_witness :
  validate plain_library (Json (JObj [("version", JStr "2.0")])) = None
  /\ lambda_handler plain_library
       (mkEvent "POST" "/platform" (Json (JObj [("version", JStr "2.0")]))) []
     = (mkResponse 422 (JObj [("detail", JArr [])]), []).
Proof.
  apply (platform_invalid_body_422 plain_library
           (Json (JObj [("version", JStr "2.0")])) []).
  right. exists [("version", JStr "2.0")]. split; reflexivity.
Defined.

(** C6. When the body leaves out [version] or [description], the request
    handed to [platform] carries the default there, "1.0.0" and "" in turn,
    and so never [None]. *)
Theorem absent_optional_fields_get_defaults :
  forall (L : Library) (b : Body) (fields : list (string * json))
         (request : PlatformRequest),
    body_fields L b = Some fields ->
    validate L b = Some request ->
    (lookup "version" fields = None ->
       version request = Some "1.0.0" /\ version request <> None)
    /\ (lookup "description" fields = None ->
          description request = Some "" /\ description request <> None).
Proof.
  intros L b fields request Hf Hv.
  unfold validate in Hv. rewrite Hf in Hv. unfold validate_fields in Hv.
  destruct (validate_required L (lookup "name" fields)) as [n|];
    [| discriminate].
  destruct (validate_optional L "1.0.0" (lookup "version" fields))
    as [v|] eqn:Ev; [| discriminate].
  destruct (validate_optional L "" (lookup "description" fields))
    as [d|] eqn:Ed; [| discriminate].
  injection Hv as <-. cbn [version description].
  split; intros Habs.
  - rewrite Habs in Ev. cbn in Ev. injection Ev as <-. split; congruence.
  - rewrite Habs in Ed. cbn in Ed. injection Ed as <-. split; congruence.
Qed.

Lemma absent_optional_fields_get_defaults_witness :
  version (mkPlatformRequest "Acme" (Some "1.0.0") (Some "")) = Some "1.0.0"
  /\ description (mkPlatformRequest "Acme" (Some "1.0.0") (Some "")) = Some "".
Proof.
  destruct (absent_optional_fields_get_defaults plain_library
              (Json (JObj [("name", JStr "Acme")])) [("name", JStr "Acme")]
              (mkPlatformRequest "Acme" (Some "1.0.0") (Some ""))
              eq_refl eq_refl) as [Hv Hd].
  split; [exact (proj1 (Hv eq_refl)) | exact (proj1 (Hd eq_refl))].
Defined.

(** C10. An explicit JSON null under [version] passes validation and is
    answered with status 200: the attribute stays [None] (the default
    "1.0.0" is not put in its place), the message has no version clause and
    platform.version in the answer is null.  The same holds for an explicit
    null under [description]. *)
Theorem explicit_null_is_kept :
  forall (L : Library) (b : Body) (fields : list (string * json))
         (n : string) (log : Log),
    body_fields L b = Some fields ->
    lookup "name" fields = Some (JStr n) ->
    (forall d : option string,
        lookup "version" fields = Some JNull ->
        validate_optional L "" (lookup "description" fields) = Some d ->
        let request := mkPlatformRequest n None d in
        let response :=
          fst (lambda_handler L (mkEvent "POST" "/platform" b) log) in
        validate L b = Some request
        /\ statusCode response = 200%Z
        /\ jget "message" (payload response)
           = Some (JStr (base_greeting request ++ description_clause request))
        /\ jpath ["platform"; "version"] (payload response) = Some JNull)
    /\ (forall v : option string,
          lookup "description" fields = Some JNull ->
          validate_optional L "1.0.0" (lookup "version" fields) = Some v ->
          let request := mkPlatformRequest n v None in
          let response :=
            fst (lambda_handler L (mkEvent "POST" "/platform" b) log) in
          validate L b = Some request
          /\ statusCode response = 200%Z
          /\ jget "message" (payload response)
             = Some (JStr (base_greeting request ++ version_clause request))
          /\ jpath ["platform"; "description"] (payload response) = Some JNull).
Proof.
  intros L b fields n log Hf Hn. split.
  - intros d Hnull Hd request response.
    assert (Hok : validate L b = Some request).
    { unfold validate, validate_fields. now rewrite Hf, Hn, Hnull, Hd. }
    subst response.
    rewrite (lambda_handler_platform_valid L b request log Hok).
    repeat split; try assumption.
    cbn [fst payload ok platform_info jget lookup String.eqb Ascii.eqb Bool.eqb].
    now rewrite response_message_clauses.
  - intros v Hnull Hv request response.
    assert (Hok : validate L b = Some request).
    { unfold validate, validate_fields. now rewrite Hf, Hn, Hv, Hnull. }
    subst response.
    rewrite (lambda_handler_platform_valid L b request log Hok).
    repeat split; try assumption.
    cbn [fst payload ok platform_info jget lookup String.eqb Ascii.eqb Bool.eqb].
    rewrite response_message_clauses.
    unfold description_clause at 1; cbn [description request].
    now rewrite append_nil_r.
Qed.

Lemma explicit_null_is_kept_witness :
  validate plain_library (Json (JObj [("name", JStr "Acme"); ("version", JNull)]))
  = Some (mkPlatformRequest "Acme" None (Some ""))
  /\ statusCode
       (fst (lambda_handler plain_library
          (mkEvent "POST" "/platform"
             (Json (JObj [("name", JStr "Acme"); ("version", JNull)]))) []))
     = 200%Z
  /\ jget "message"
       (payload (fst (lambda_handler plain_library
          (mkEvent "POST" "/platform"
             (Json (JObj [("name", JStr "Acme"); ("version", JNull)]))) [])))
     = Some (JStr "Welcome to Acme!")
  /\ jpath ["platform"; "version"]
       (payload (fst (lambda_handler plain_library
          (mkEvent "POST" "/platform"
             (Json (JObj [("name", JStr "Acme"); ("version", JNull)]))) [])))
     = Some JNull.
Proof.
  exact (proj1 (explicit_null_is_kept plain_library
                  (Json (JObj [("name", JStr "Acme"); ("version", JNull)]))
                  [("name", JStr "Acme"); ("version", JNull)] "Acme" []
                  eq_refl eq_refl)
               (Some "") eq_refl eq_refl).
Defined.

(** ** Requests outside the three routes *)

(** GET /platform: the path is registered for POST alone, and the answer is
    405, not 404. *)
Lemma wrong_method_is_not_404 :
  lambda_handler plain_library (GET "/platform") []
  = (mkResponse 405 (JObj [("detail", JStr "Method Not Allowed")]), [])
  /\ lambda_handler plain_library (GET "/platform") []
     <> (mkResponse 404 (JObj [("error", JStr "not found")]), []).
Proof. split; [reflexivity | discriminate]. Qed.

(** C1, as the module declares it.  An event whose method and path are not
    one of GET /health, GET /, POST /platform runs no handler and leaves the
    log as it was.  When its path is one of the three registered paths the
    answer is 405 with body {"detail": "Method Not Allowed"}; otherwise the
    answer is whatever the framework gives to a request no route of the
    module names. *)
Theorem unmatched_request_response :
  forall (L : Library) (ev : Event) (log : Log),
    ~ (httpMethod ev = "GET" /\ path ev = "/health") ->
    ~ (httpMethod ev = "GET" /\ path ev = "/") ->
    ~ (httpMethod ev = "POST" /\ path ev = "/platform") ->
    ((path ev = "/health" \/ path ev = "/" \/ path ev = "/platform") ->
       lambda_handler L ev log
       = (mkResponse 405 (JObj [("detail", JStr "Method Not Allowed")]), log))
    /\ (~ (path ev = "/health" \/ path ev = "/" \/ path ev = "/platform") ->
          lambda_handler L ev log = (unrouted L ev, log)).
Proof.
  intros L [m p b] log Hh Hr Hp. cbn [httpMethod path] in *.
  unfold lambda_handler, app, routes.
  cbn [find]. unfold full_match, partial_match.
  cbn [path httpMethod route_path route_method route_endpoint].
  destruct (String.eqb p "/health") eqn:Eh.
  { apply String.eqb_eq in Eh. subst p.
    destruct (String.eqb m "GET") eqn:Eg;
      [apply String.eqb_eq in Eg; tauto |].
    cbn. split; [reflexivity | tauto]. }
  apply String.eqb_neq in Eh.
  destruct (String.eqb p "/") eqn:Er.
  { apply String.eqb_eq in Er. subst p.
    destruct (String.eqb m "GET") eqn:Eg;
      [apply String.eqb_eq in Eg; tauto |].
    cbn. split; [reflexivity | tauto]. }
  apply String.eqb_neq in Er.
  destruct (String.eqb p "/platform") eqn:Ep.
  { apply String.eqb_eq in Ep. subst p.
    destruct (String.eqb m "POST") eqn:Eg;
      [apply String.eqb_eq in Eg; tauto |].
    cbn. split; [reflexivity | tauto]. }
  apply String.eqb_neq in Ep.
  cbn. split; [tauto | reflexivity].
Qed.

Lemma unmatched_request_response_witness :
  lambda_handler plain_library (mkEvent "DELETE" "/health" NoBody) []
  = (mkResponse 405 (JObj [("detail", JStr "Method Not Allowed")]), []).
Proof.
  apply (proj1 (unmatched_request_response plain_library
                  (mkEvent "DELETE" "/health" NoBody) []
                  ltac:(intros [H _]; discriminate H)
                  ltac:(intros [H _]; discriminate H)
                  ltac:(intros [H _]; discriminate H))).
  left. reflexivity.
Defined.

(** ** Exceptions *)

(** The [except] clause of [platform]: one record at ERROR severity, then
    the same exception again. *)
Lemma platform_except_logs_then_reraises (e : exn) (log : Log) :
  platform_except e log
  = (Raise e,
     emit ERROR ("Error processing platform request: " ++ str_exn e) log).
Proof. reflexivity. Qed.

(** Around any block that raises, the clause logs before the exception
    leaves. *)
Lemma try_except_platform_except (body : M json) (e : exn) (log log' : Log) :
  body log = (Raise e, log') ->
  try_except body platform_except log
  = (Raise e,
     emit ERROR ("Error processing platform request: " ++ str_exn e) log').
Proof. intros Hb. unfold try_except. now rewrite Hb. Qed.

(** ** Invocations do not see each other *)

(** C8. The answer to an event is a function of the event alone: there are
    a response and a list of log records such that, in whatever state
    earlier invocations left the logger, the invocation returns that
    response and only appends those records; two invocations on the same
    event therefore return the same response.  For POST /platform,
    metadata.processed_at is the fixed text "2024-01-01T00:00:00Z". *)
Theorem dispatch_deterministic :
  forall (L : Library) (ev : Event),
    (exists (response : Response) (records : Log),
        forall log : Log,
          lambda_handler L ev log = (response, (log ++ records)%list))
    /\ (forall log1 log2 : Log,
          fst (lambda_handler L ev log1) = fst (lambda_handler L ev log2))
    /\ (forall (request : PlatformRequest) (log : Log),
          validate L (body ev) = Some request ->
          jpath ["metadata"; "processed_at"]
            (payload (fst (lambda_handler L
                             (mkEvent "POST" "/platform" (body ev)) log)))
          = Some (JStr "2024-01-01T00:00:00Z")).
Proof.
  intros L ev.
  assert (Hex : exists (response : Response) (records : Log),
             forall log : Log,
               lambda_handler L ev log = (response, (log ++ records)%list)).
  { destruct ev as [m p b].
    destruct (String.eqb p "/platform" && String.eqb m "POST") eqn:E.
    - apply andb_true_iff in E. destruct E as [Ep Em].
      apply String.eqb_eq in Ep, Em. subst p m.
      destruct (validate L b) as [request|] eqn:Hv.
      + exists (ok (platform_info request)).
        exists [(INFO, "Processing platform request: " ++ dict_repr L request)].
        intros log.
        now rewrite (lambda_handler_platform_valid L b request log Hv).
      + exists (unprocessable L b), []. intros log.
        rewrite (lambda_handler_platform_invalid L b log Hv).
        now rewrite app_nil_r.
    - unfold lambda_handler, app, routes.
      cbn [find]. unfold full_match, partial_match.
      cbn [path httpMethod route_path route_method route_endpoint].
      destruct (String.eqb p "/health"), (String.eqb m "GET"),
        (String.eqb p "/"), (String.eqb p "/platform"), (String.eqb m "POST");
        cbn [andb] in E |- *; try discriminate E;
        eexists; exists []; intros log; rewrite app_nil_r; reflexivity. }
  split; [exact Hex |]. split.
  - destruct Hex as [response [records Hex]]. intros log1 log2.
    now rewrite (Hex log1), (Hex log2).
  - intros request log Hv.
    now rewrite (lambda_handler_platform_valid L _ request log Hv).
Qed.

Lemma dispatch_deterministic_witness :
  jpath ["metadata"; "processed_at"]
    (payload (fst (lambda_handler plain_library
       (mkEvent "POST" "/platform" (Json (JObj [("name", JStr "Acme")])))
       [(INFO, "earlier invocation")])))
  = Some (JStr "2024-01-01T00:00:00Z").
Proof.
  exact (proj2 (proj2 (dispatch_deterministic plain_library
                         (POST "/platform" (JObj [("name", JStr "Acme")]))))
               (mkPlatformRequest "Acme" (Some "1.0.0") (Some ""))
               [(INFO, "earlier invocation")] eq_refl).
Defined.

(** ** Further properties of the handlers *)

Lemma length_append (s t : string) :
  String.length (s ++ t) = String.length s + String.length t.
Proof. induction s as [|c s IH]; simpl; [reflexivity | now rewrite IH]. Qed.

Lemma prefix_append (s t : string) : String.prefix s (s ++ t) = true.
Proof.
  induction s as [|c s IH]; simpl; [now destruct t |].
  destruct (ascii_dec c c) as [_ | N]; [exact IH | now elim N].
Qed.

Lemma append_eq_self (s t : string) : s ++ t = s -> t = "".
Proof.
  intros H. apply (f_equal String.length) in H. rewrite length_append in H.
  destruct t as [|c t]; [reflexivity |]. simpl in H. lia.
Qed.

(** GET /: every event with method GET and path / is answered with status
    200 and the body {"message": "Hello from Python Lambda!"}; no log record
    is written. *)
Theorem root_always_greets :
  forall (L : Library) (b : Body) (log : Log),
    lambda_handler L (mkEvent "GET" "/" b) log
    = (mkResponse 200 (JObj [("message", JStr "Hello from Python Lambda!")]),
       log).
Proof. intros L b log. unfold lambda_handler. now rewrite app_root. Qed.

(** The answer of POST /platform gives back what the body held: a string
    under [name], [version] or [description] in the body is the string under
    platform.name, platform.version or platform.description in the answer,
    next to the fixed status "active" and uptime "99.9%". *)
Theorem platform_echoes_request :
  forall (L : Library) (b : Body) (fields : list (string * json))
         (request : PlatformRequest) (log : Log),
    body_fields L b = Some fields ->
    validate L b = Some request ->
    let answer :=
      payload (fst (lambda_handler L (mkEvent "POST" "/platform" b) log)) in
    (forall n, lookup "name" fields = Some (JStr n) ->
               jpath ["platform"; "name"] answer = Some (JStr n))
    /\ (forall v, lookup "version" fields = Some (JStr v) ->
                  jpath ["platform"; "version"] answer = Some (JStr v))
    /\ (forall d, lookup "description" fields = Some (JStr d) ->
                  jpath ["platform"; "description"] answer = Some (JStr d))
    /\ jpath ["platform"; "status"] answer = Some (JStr "active")
    /\ jpath ["platform"; "uptime"] answer = Some (JStr "99.9%").
Proof.
  intros L b fields request log Hf Hv answer. subst answer.
  rewrite (lambda_handler_platform_valid L b request log Hv).
  unfold validate in Hv. rewrite Hf in Hv. unfold validate_fields in Hv.
  destruct (validate_required L (lookup "name" fields)) as [n|] eqn:En;
    [| discriminate].
  destruct (validate_optional L "1.0.0" (lookup "version" fields))
    as [v|] eqn:Ev; [| discriminate].
  destruct (validate_optional L "" (lookup "description" fields))
    as [d|] eqn:Ed; [| discriminate].
  injection Hv as <-.
  repeat split.
  - intros n' Hn. rewrite Hn in En. cbn in En. injection En as <-. reflexivity.
  - intros v' Hv'. rewrite Hv' in Ev. cbn in Ev. injection Ev as <-. reflexivity.
  - intros d' Hd'. rewrite Hd' in Ed. cbn in Ed. injection Ed as <-. reflexivity.
Qed.

Lemma platform_echoes_request_witness :
  jpath ["platform"; "name"]
    (payload (fst (lambda_handler plain_library
       (mkEvent "POST" "/platform"
          (Json (JObj [("name", JStr "Acme"); ("version", JStr "2.1")]))) [])))
  = Some (JStr "Acme").
Proof.
  exact (proj1 (platform_echoes_request plain_library
                  (Json (JObj [("name", JStr "Acme"); ("version", JStr "2.1")]))
                  [("name", JStr "Acme"); ("version", JStr "2.1")]
                  (mkPlatformRequest "Acme" (Some "2.1") (Some "")) []
                  eq_refl eq_refl)
               "Acme" eq_refl).
Defined.

(** What an invocation writes to the log: nothing, or, for a POST /platform
    whose body passes validation, the one INFO record of [platform]; never a
    record at ERROR severity. *)
Theorem log_grows_only_on_valid_platform :
  forall (L : Library) (ev : Event) (log : Log),
    snd (lambda_handler L ev log) = log
    \/ (httpMethod ev = "POST" /\ path ev = "/platform"
        /\ exists request,
             validate L (body ev) = Some request
             /\ snd (lambda_handler L ev log)
                = emit INFO ("Processing platform request: "
                             ++ dict_repr L request) log).
Proof.
  intros L [m p b] log. cbn [httpMethod path body].
  destruct (String.eqb p "/platform" && String.eqb m "POST") eqn:E.
  - apply andb_true_iff in E. destruct E as [Ep Em].
    apply String.eqb_eq in Ep, Em. subst p m.
    destruct (validate L b) as [request|] eqn:Hv.
    + right. repeat split. exists request. split; [reflexivity |].
      now rewrite (lambda_handler_platform_valid L b request log Hv).
    + left. now rewrite (lambda_handler_platform_invalid L b log Hv).
  - left. unfold lambda_handler, app, routes.
    cbn [find]. unfold full_match, partial_match.
    cbn [path httpMethod route_path route_method route_endpoint].
    destruct (String.eqb p "/health"), (String.eqb m "GET"),
      (String.eqb p "/"), (String.eqb p "/platform"), (String.eqb m "POST");
      cbn [andb] in E |- *; try discriminate E; reflexivity.
Qed.


(** The message of every successful POST /platform begins with the greeting
    "Welcome to <name>!", whatever the version and the description are. *)
Theorem message_starts_with_greeting :
  forall (L : Library) (b : Body) (request : PlatformRequest) (log : Log),
    validate L b = Some request ->
    exists m : string,
      jget "message"
        (payload (fst (lambda_handler L (mkEvent "POST" "/platform" b) log)))
      = Some (JStr m)
      /\ String.prefix ("Welcome to " ++ name request ++ "!") m = true.
Proof.
  intros L b request log Hv.
  rewrite (lambda_handler_platform_valid L b request log Hv).
  exists (response_message request). split; [reflexivity |].
  rewrite response_message_clauses. unfold base_greeting.
  apply (prefix_append ("Welcome to " ++ name request ++ "!")).
Qed.

Lemma message_starts_with_greeting_witness :
  exists m : string,
    jget "message"
      (payload (fst (lambda_handler plain_library
         (mkEvent "POST" "/platform"
            (Json (JObj [("name", JStr "Acme"); ("description", JStr "x")])))
         [])))
    = Some (JStr m)
    /\ String.prefix
         ("Welcome to "
          ++ name (mkPlatformRequest "Acme" (Some "1.0.0") (Some "x")) ++ "!")
         m = true.
Proof.
  exact (message_starts_with_greeting plain_library
           (Json (JObj [("name", JStr "Acme"); ("description", JStr "x")]))
           (mkPlatformRequest "Acme" (Some "1.0.0") (Some "x")) [] eq_refl).
Defined.

(** The message is the bare greeting exactly when neither clause applies:
    the version is [None] or empty and the description is [None] or empty. *)
Theorem message_is_bare_greeting_iff :
  forall request : PlatformRequest,
    response_message request = "Welcome to " ++ name request ++ "!"
    <-> (truthy (version request) = false
         /\ truthy (description request) = false).
Proof.
  intros request. rewrite response_message_clauses. unfold base_greeting.
  split.
  - intros H. apply append_eq_self in H.
    revert H. unfold version_clause, description_clause.
    destruct request as [n [[|c v]|] [[|c' d]|]];
      cbn [version description truthy String.eqb negb];
      intros H; try (split; reflexivity); discriminate H.
  - intros [Hv Hd]. unfold version_clause, description_clause.
    destruct request as [n [[|c v]|] [[|c' d]|]];
      cbn [version description name truthy String.eqb negb] in *;
      try discriminate; now rewrite ?append_nil_r.
Qed.

(** With a non-empty version and a non-empty description the message is
    "Welcome to <name>! Running version <version>. Description: <description>". *)
Theorem message_with_both_clauses :
  forall (n v d : string),
    v <> "" -> d <> "" ->
    response_message (mkPlatformRequest n (Some v) (Some d))
    = "Welcome to " ++ n ++ "! Running version " ++ v
      ++ ". Description: " ++ d.
Proof.
  intros n v d Hv Hd. rewrite response_message_clauses.
  unfold base_greeting, version_clause, description_clause.
  cbn [name version description].
  destruct v as [|c v]; [now elim Hv |].
  destruct d as [|c' d]; [now elim Hd |].
  rewrite !append_assoc. reflexivity.
Qed.

Lemma message_with_both_clauses_witness :
  response_message (mkPlatformRequest "Acme" (Some "2.1") (Some "x"))
  = "Welcome to " ++ "Acme" ++ "! Running version " ++ "2.1"
    ++ ". Description: " ++ "x".
Proof.
  apply (message_with_both_clauses "Acme" "2.1" "x"); discriminate.
Defined.

(** ** Further properties of validation *)

(** Only the keys [name], [version] and [description] of the body are read:
    two JSON objects that agree on these three keys validate to the same
    request, and when that succeeds POST /platform gives the same answer and
    the same log record for both. *)
Theorem only_declared_keys_matter :
  forall (L : Library) (fields1 fields2 : list (string * json)) (log : Log),
    lookup "name" fields1 = lookup "name" fields2 ->
    lookup "version" fields1 = lookup "version" fields2 ->
    lookup "description" fields1 = lookup "description" fields2 ->
    validate L (Json (JObj fields1)) = validate L (Json (JObj fields2))
    /\ (validate L (Json (JObj fields1)) <> None ->
        lambda_handler L (POST "/platform" (JObj fields1)) log
        = lambda_handler L (POST "/platform" (JObj fields2)) log).
Proof.
  intros L fields1 fields2 log Hn Hv Hd.
  assert (Heq : validate L (Json (JObj fields1))
                = validate L (Json (JObj fields2))).
  { unfold validate, validate_fields; cbn [body_fields].
    now rewrite Hn, Hv, Hd. }
  split; [exact Heq |].
  intros Hsome. unfold POST.
  destruct (validate L (Json (JObj fields1))) as [request|] eqn:E1;
    [| now elim Hsome].
  rewrite (lambda_handler_platform_valid L _ request log E1).
  now rewrite (lambda_handler_platform_valid L _ request log (eq_sym Heq)).
Qed.

Lemma only_declared_keys_matter_witness :
  lambda_handler plain_library
    (POST "/platform" (JObj [("owner", JStr "ops"); ("name", JStr "Acme")])) []
  = lambda_handler plain_library
      (POST "/platform" (JObj [("name", JStr "Acme")])) [].
Proof.
  apply (proj2 (only_declared_keys_matter plain_library
                  [("owner", JStr "ops"); ("name", JStr "Acme")]
                  [("name", JStr "Acme")] [] eq_refl eq_refl eq_refl)).
  discriminate.
Defined.


(** [name] is not optional: a POST /platform with no body at all, or with
    an explicit null under [name], is answered with status 422 and
    [platform] is not called, although a null under [version] or
    [description] is accepted. *)
Theorem null_name_or_no_body_rejected :
  forall (L : Library) (b : Body) (log : Log),
    (b = NoBody
     \/ exists fields,
          b = Json (JObj fields) /\ lookup "name" fields = Some JNull) ->
    validate L b = None
    /\ lambda_handler L (mkEvent "POST" "/platform" b) log
       = (mkResponse 422 (JObj [("detail", error_detail L b)]), log).
Proof.
  intros L b log Hb.
  assert (Hv : validate L b = None).
  { destruct Hb as [-> | [fields [-> Hn]]]; [reflexivity |].
    unfold validate, validate_fields; cbn [body_fields]. now rewrite Hn. }
  split; [exact Hv |].
  now rewrite (lambda_handler_platform_invalid L b log Hv).
Qed.

Lemma null_name_or_no_body_rejected_witness :
  validate plain_library (Json (JObj [("name", JNull)])) = None
  /\ lambda_handler plain_library
       (mkEvent "POST" "/platform" (Json (JObj [("name", JNull)]))) []
     = (mkResponse 422 (JObj [("detail", JArr [])]), []).
Proof.
  apply (null_name_or_no_body_rejected plain_library
           (Json (JObj [("name", JNull)])) []).
  right. exists [("name", JNull)]. split; reflexivity.
Defined.

(** ** The except clause at work *)

Lemma try_except_platform_except_witness :
  try_except (raise (Exception "boom")) platform_except []
  = (Raise (Exception "boom"),
     [(ERROR, "Error processing platform request: boom")]).
Proof.
  exact (try_except_platform_except (raise (Exception "boom"))
           (Exception "boom") [] [] eq_refl).
Defined.
